(** * EfficientNet fine-tuning notebook: staged freezing and unfreezing

    Shallow embedding of the code cells of
    [examples/vision/ipynb/image_classification_efficientnet_fine_tuning.ipynb]:
    the strategy selection cell, the data loading cell, [build_model] and
    [unfreeze_model].

    Keras layers are mutable objects shared between the models that contain
    them, so layers live in a heap and models hold references into it. *)

From Stdlib Require Import String Ascii ZArith QArith DecimalString.
From stdpp Require Import base list strings gmap.

(** ** Python strings *)

(** [sub in s] on Python strings: [sub] occurs as a contiguous substring. *)
Fixpoint contains (sub s : string) : bool :=
  if String.prefix sub s then true
  else match s with
       | EmptyString => false
       | String _ s' => contains sub s'
       end.

(** [str(n)] for a non-negative integer. *)
Definition str (n : nat) : string := NilZero.string_of_uint (Nat.to_uint n).

(** ** Layers, tensors and models *)

(** The layer classes the notebook instantiates, with the constructor
    arguments it passes.  An argument the notebook leaves out is [None]:
    the framework's default applies.  [Functional] is a model used as a
    layer of another model, as the cell that trains from scratch uses
    [EfficientNetB0(...)(x)]; it holds the layers inside it. *)
Inductive LayerKind :=
  | InputLayer (shape : Z * Z * Z)
  | RandomFlip (mode : option string)
  | RandomContrast (factor : Q)
  | Resizing (height width : Z) (interpolation : string)
  | EfficientNetLayer
  | GlobalAveragePooling2D
  | BatchNormalization
  | Dropout (rate : Q)
  | Dense (units : Z) (activation : string)
  | Functional (inner : list nat).

(** The framework's default for the [mode] of [RandomFlip]. *)
Definition RandomFlip_default_mode : string := "horizontal_and_vertical".

(** The directions in which a layer flips its input, if it is a
    [RandomFlip]. *)
Definition flip_mode (k : LayerKind) : option string :=
  match k with
  | RandomFlip mode => Some (default RandomFlip_default_mode mode)
  | _ => None
  end.

Record Layer := mkLayer {
  name : string;
  kind : LayerKind;
  trainable : bool
}.

(** The layers inside a layer: those of a model used as a layer. *)
Definition sublayers (ly : Layer) : list nat :=
  match kind ly with
  | Functional inner => inner
  | _ => []
  end.

(** A reference to a layer object. *)
Abbreviation ref := nat (only parsing).

(** A symbolic tensor is known by the layers that produce it, from the
    input layer on, in the order [Model.layers] lists them. *)
Abbreviation Tensor := (list nat) (only parsing).

Record Optimizer := SGD {
  learning_rate : Q;
  momentum : option Q;
  nesterov : option bool
}.

Record Model := mkModel {
  model_name : string;
  layers : list nat;
  optimizer : option Optimizer;
  loss : option string;
  metrics : list string
}.

(** [model.output] *)
Definition output (model : Model) : Tensor := layers model.

(** ** The interpreter session

    The layer objects, the framework's table of used layer names, what
    has been printed so far and the weight files the framework has
    already downloaded. *)
Record Session := mkSession {
  heap : list Layer;
  name_uid : gmap string nat;
  stdout : list string;
  cached : list string
}.

Definition M (A : Type) : Type := Session -> A * Session.

Definition ret {A} (a : A) : M A := fun s => (a, s).

Definition bind {A B} (m : M A) (f : A -> M B) : M B :=
  fun s => let (a, s') := m s in f a s'.

Declare Scope session_scope.
Delimit Scope session_scope with session.
Notation "x <- m ;; k" := (bind m (fun x => k))
  (at level 100, m at next level, right associativity) : session_scope.
Notation "m ;;; k" := (bind m (fun _ => k))
  (at level 100, right associativity) : session_scope.
Open Scope session_scope.

(** The result and the final session of a run. *)
Definition eval {A} (m : M A) (s : Session) : A := fst (m s).
Definition exec {A} (m : M A) (s : Session) : Session := snd (m s).

(** [for x in xs: body] *)
Fixpoint for_each {A} (xs : list A) (body : A -> M unit) : M unit :=
  match xs with
  | [] => ret tt
  | x :: xs' => body x ;;; for_each xs' body
  end.

Definition print (line : string) : M unit :=
  fun s => (tt, mkSession (heap s) (name_uid s) (stdout s ++ [line])
                  (cached s)).

(** [l.name] *)
Definition get_name (l : ref) : M string :=
  fun s => (match heap s !! l with Some ly => name ly | None => "" end, s).

(** [l.trainable = b]: the setter stores the flag in the layer and assigns
    it to every layer inside it, which does the same for the layers inside
    itself.  [depth] bounds the nesting; layers are nested less deep than
    there are layer objects. *)
Fixpoint set_trainable_in (depth : nat) (l : ref) (b : bool) : M unit :=
  fun s =>
    let s' := mkSession
                (alter (fun ly => mkLayer (name ly) (kind ly) b) l (heap s))
                (name_uid s) (stdout s) (cached s) in
    match depth with
    | 0 => (tt, s')
    | S depth' =>
        for_each (from_option sublayers [] (heap s !! l))
                 (fun l' => set_trainable_in depth' l' b) s'
    end.

Definition set_trainable (l : ref) (b : bool) : M unit :=
  fun s => set_trainable_in (length (heap s)) l b s.

(** *** Layer names given by the framework *)

(** The class name in snake case, the prefix of an automatic name. *)
Definition class_name (k : LayerKind) : string :=
  match k with
  | InputLayer _ => "input"
  | RandomFlip _ => "random_flip"
  | RandomContrast _ => "random_contrast"
  | Resizing _ _ _ => "resizing"
  | EfficientNetLayer => "efficientnet"
  | GlobalAveragePooling2D => "global_average_pooling2d"
  | BatchNormalization => "batch_normalization"
  | Dropout _ => "dropout"
  | Dense _ _ => "dense"
  | Functional _ => "functional"
  end.

(** An unnamed layer is called after its class; from the second of a class
    on, the number of earlier ones is appended. *)
Definition auto_name (prefix : string) (number : nat) : string :=
  if number is 0 then prefix else prefix +:+ "_" +:+ str number.

Definition unique_object_name (prefix : string) : M string :=
  fun s =>
    let number := default 0 (name_uid s !! prefix) in
    (auto_name prefix number,
     mkSession (heap s) (<[prefix := S number]> (name_uid s)) (stdout s)
       (cached s)).

(** Input layers are numbered from one. *)
Definition input_name : M string :=
  fun s =>
    let number := S (default 0 (name_uid s !! "input")) in
    ("input_" +:+ str number,
     mkSession (heap s) (<["input" := number]> (name_uid s)) (stdout s)
       (cached s)).

(** A new layer object; layers are created trainable. *)
Definition alloc (ly : Layer) : M nat :=
  fun s => (length (heap s),
            mkSession (heap s ++ [ly]) (name_uid s) (stdout s) (cached s)).

Definition new_layer (k : LayerKind) (given : option string) : M nat :=
  nm <- match given with
        | Some nm => ret nm
        | None => match k with
                  | InputLayer _ => input_name
                  | _ => unique_object_name (class_name k)
                  end
        end ;;
  alloc (mkLayer nm k true).

(** [keras.layers.Input(shape=...)] *)
Definition Input (shape : Z * Z * Z) : M Tensor :=
  l <- new_layer (InputLayer shape) None ;;
  ret [l].

(** [Class(args, name=...)(x)]: a new layer applied to the tensor [x]. *)
Definition apply_layer (k : LayerKind) (given : option string) (x : Tensor)
  : M Tensor :=
  l <- new_layer k given ;;
  ret (x ++ [l]).

(** [keras.Model(inputs, outputs, name=...)]: the layers that lead from the
    inputs to the outputs. *)
Definition keras_Model (inputs outputs : Tensor) (nm : string) : Model :=
  mkModel nm outputs None None [].

(** [model.compile(optimizer=..., loss=..., metrics=...)] *)
Definition compile (model : Model) (opt : Optimizer) (l : string)
    (ms : list string) : Model :=
  mkModel (model_name model) (layers model) (Some opt) (Some l) ms.

(** The layer objects of a model, in order. *)
Definition model_layers (s : Session) (model : Model) : list Layer :=
  omap (fun l => heap s !! l) (layers model).

(** ** The notebook *)

(** [IMG_SIZE] is determined by the EfficientNet model choice. *)
Definition IMG_SIZE : Z := 224.

Definition NUM_CLASSES : Z := 100.

(** The table of input resolutions the notebook gives for B0 to B7. *)
Inductive Variant := B0 | B1 | B2 | B3 | B4 | B5 | B6 | B7.

Definition resolution (v : Variant) : Z :=
  match v with
  | B0 => 224 | B1 => 240 | B2 => 260 | B3 => 300
  | B4 => 380 | B5 => 456 | B6 => 528 | B7 => 600
  end.

(** Several new layer objects at once; the references come back in order. *)
Fixpoint alloc_all (lys : list Layer) : M (list nat) :=
  match lys with
  | [] => ret []
  | ly :: lys' =>
      l <- alloc ly ;;
      ls <- alloc_all lys' ;;
      ret (l :: ls)
  end.

(** Where the framework keeps the pretrained weights. *)
Definition BASE_WEIGHTS_PATH : string :=
  "https://storage.googleapis.com/keras-applications/".

Section Notebook.

(** The layer names of the framework's EfficientNetB0, in order, with
    ([true]) and without ([false]) its classification top, from the third
    layer on: these are created with an explicit name.  The first two
    layers, a rescaling and a normalization, are not. *)
Variable efficientnet_b0_names : bool -> list string.

(** What the progress display writes while the file is downloaded. *)
Variable download_progress : string -> list string.

(** The framework fetches a weight file that it has not fetched before,
    and says so. *)
Definition get_file (fname origin : string) : M unit :=
  fun s =>
    if bool_decide (fname ∈ cached s) then (tt, s)
    else (tt, mkSession (heap s) (name_uid s)
                (stdout s ++ ("Downloading data from " +:+ origin)
                              :: download_progress fname)
                (cached s ++ [fname])).

(** [EfficientNetB0(include_top=..., input_tensor=x, weights=...)]: the
    architecture is built on top of [x], the model reaches back to the
    input that [x] comes from, and the weights are loaded into it. *)
Definition EfficientNetB0 (include_top : bool) (input_tensor : Tensor)
    (weights : option string) : M Model :=
  rescaling <- unique_object_name "rescaling" ;;
  normalization <- unique_object_name "normalization" ;;
  ls <- alloc_all (map (fun nm => mkLayer nm EfficientNetLayer true)
                       (rescaling :: normalization
                        :: efficientnet_b0_names include_top)) ;;
  match weights with
  | Some w =>
      if String.eqb w "imagenet" then
        let file_name :=
          "efficientnetb0" +:+ (if include_top then ".h5" else "_notop.h5") in
        get_file file_name (BASE_WEIGHTS_PATH +:+ file_name)
      else ret tt
  | None => ret tt
  end ;;;
  ret (mkModel "efficientnetb0" (input_tensor ++ ls) None None []).

Definition build_model (n_classes : Z) : M Model :=
  inputs <- Input (32, 32, 3)%Z ;;
  let x := inputs in

  x <- apply_layer (RandomFlip None) None x ;;
  x <- apply_layer (RandomContrast 0.1) None x ;;
  x <- apply_layer (Resizing IMG_SIZE IMG_SIZE "bilinear") None x ;;

  model <- EfficientNetB0 false x (Some "imagenet") ;;

  (* freeze the pretrained weights *)
  for_each (layers model) (fun l => set_trainable l false) ;;;

  (* rebuild top *)
  x <- apply_layer GlobalAveragePooling2D (Some "avg_pool") (output model) ;;
  x <- apply_layer BatchNormalization None x ;;

  let top_dropout_rate := 0.2%Q in
  x <- apply_layer (Dropout top_dropout_rate) (Some "top_dropout") x ;;
  x <- apply_layer (Dense 100 "softmax") (Some "pred") x ;;

  (* compile *)
  let model := keras_Model inputs x "EfficientNet" in
  let sgd := SGD 0.2 (Some 0.1%Q) (Some true) in
  let model := compile model sgd "categorical_crossentropy" ["accuracy"] in
  ret model.

Definition unfreeze_model (model : Model) : M Model :=
  for_each (layers model) (fun l =>
    nm <- get_name l ;;
    if contains "bn" nm then
      print (nm +:+ " is staying untrainable")
    else
      set_trainable l true) ;;;

  let sgd := SGD 0.005 None None in
  let model := compile model sgd "categorical_crossentropy" ["accuracy"] in
  ret model.

End Notebook.

(** A few of the layer names of EfficientNetB0, enough to run the code on. *)
Definition sample_names (include_top : bool) : list string :=
  ["stem_conv_pad"; "stem_conv"; "stem_bn";
   "stem_activation"; "block1a_dwconv"; "block1a_bn"; "block1a_activation";
   "top_conv"; "top_bn"; "top_activation"] ++
  (if include_top then ["avg_pool"; "top_dropout"; "predictions"] else []).

Definition sample_progress (fname : string) : list string :=
  ["16711680/16705208 [==============================] - 0s 0us/step"].

Definition empty_session : Session := mkSession [] ∅ [] [].

(** [build_model] run on the sample, in a fresh session. *)
Definition sample_model : Model :=
  eval (build_model sample_names sample_progress NUM_CLASSES) empty_session.
Definition sample_session : Session :=
  exec (build_model sample_names sample_progress NUM_CLASSES) empty_session.

(** A model with a trainable layer whose name contains "bn". *)
Definition trainable_bn_session : Session :=
  mkSession [mkLayer "stem_conv" EfficientNetLayer false;
             mkLayer "stem_bn" EfficientNetLayer true] ∅ [] [].
Definition trainable_bn_model : Model :=
  mkModel "model" [0; 1] None None [].

(** A frozen model used as the one layer of another model. *)
Definition nested_session : Session :=
  mkSession [mkLayer "stem_conv" EfficientNetLayer false;
             mkLayer "stem_bn" EfficientNetLayer false;
             mkLayer "efficientnetb0" (Functional [0; 1]) false] ∅ [] [].
Definition nested_model : Model :=
  mkModel "model" [2] None None [].

Close Scope session_scope.

(** ** The data loading cell *)

Module Dataset.

Section Batch.
Context {A : Type}.

(** Modelled from the spec: [tf.data.Dataset.batch] belongs to the
    framework and is not part of the notebook.  Consecutive elements
    are collected into batches of [batch_size]; what is left over at
    the end of the input forms a smaller last batch, which is dropped
    when [drop_remainder] is set.  [acc] holds the elements collected
    for the current batch, newest first. *)
Fixpoint batch_from (batch_size : nat) (drop_remainder : bool)
    (acc xs : list A) : list (list A) :=
  match xs with
  | [] =>
      if drop_remainder then []
      else match acc with
           | [] => []
           | _ => [rev acc]
           end
  | x :: xs' =>
      let acc' := x :: acc in
      if length acc' =? batch_size
      then rev acc' :: batch_from batch_size drop_remainder [] xs'
      else batch_from batch_size drop_remainder acc' xs'
  end.

(** [ds.batch(batch_size=..., drop_remainder=...)]; the framework
    rejects a batch size of zero. *)
Definition batch (ds : list A) (batch_size : nat) (drop_remainder : bool)
  : option (list (list A)) :=
  match batch_size with
  | 0 => None
  | _ => Some (batch_from batch_size drop_remainder [] ds)
  end.

(** [ds.cache()] and [ds.prefetch(...)] change when elements are
    computed, not which elements there are. *)
Definition cache (ds : list A) : list A := ds.
Definition prefetch {B} (ds : list B) : list B := ds.

Definition batch_size : nat := 64.

(** [ds_train] and [ds_test], from the slices [(x, y)] of the data. *)
Definition ds_train (slices : list A) : option (list (list A)) :=
  let ds_train := cache slices in
  ds_train ← batch ds_train batch_size true;
  Some (prefetch ds_train).

Definition ds_test (slices : list A) : option (list (list A)) :=
  batch slices batch_size true.

End Batch.

End Dataset.

(** ** The strategy selection cell *)

Module Startup.

(** An exception is a [ValueError] (or of a subclass of it), or of some
    other class. *)
Inductive Exception :=
  | ValueError
  | OtherError (cls : string).

Inductive result (A : Type) :=
  | Ok (a : A)
  | Raise (e : Exception).
Arguments Ok {A} a.
Arguments Raise {A} e.

(** The resolved cluster, known by its address. *)
Abbreviation Resolver := string (only parsing).

Inductive Strategy :=
  | TPUStrategy (tpu : Resolver)
  | MirroredStrategy.

(** What the calls into [cloud_tpu_client] and the distributed runtime
    do in the environment the cell runs in: each either returns or
    raises. *)
Record Runtime := mkRuntime {
  import_Client : result unit;
  Client : result unit;
  configure_tpu_version : result unit;
  TPUClusterResolver : result Resolver;
  cluster_spec_worker : Resolver -> result (list string);
  experimental_connect_to_cluster : Resolver -> result unit;
  initialize_tpu_system : Resolver -> result unit;
  new_TPUStrategy : Resolver -> result unit
}.

(** A printed value. *)
Inductive Value :=
  | VStr (s : string)
  | VList (l : list string).

(** A cell prints lines and returns or raises.  A line is the list of
    the arguments of one [print]. *)
Definition Cell (A : Type) : Type :=
  list (list Value) -> result A * list (list Value).

Definition ret {A} (a : A) : Cell A := fun out => (Ok a, out).

Definition bind {A B} (m : Cell A) (f : A -> Cell B) : Cell B :=
  fun out =>
    match m out with
    | (Ok a, out') => f a out'
    | (Raise e, out') => (Raise e, out')
    end.

Definition call {A} (r : result A) : Cell A := fun out => (r, out).

Definition print (args : list Value) : Cell unit :=
  fun out => (Ok tt, out ++ [args]).

(** [try: body except ValueError: handler] *)
Definition try_except_ValueError {A} (body handler : Cell A) : Cell A :=
  fun out =>
    match body out with
    | (Raise ValueError, out') => handler out'
    | r => r
    end.

Declare Scope cell_scope.
Delimit Scope cell_scope with cell.
Notation "x <- m ;; k" := (bind m (fun x => k))
  (at level 100, m at next level, right associativity) : cell_scope.
Notation "m ;;; k" := (bind m (fun _ => k))
  (at level 100, right associativity) : cell_scope.
Local Open Scope cell_scope.

(** The statements under [try:]. *)
Definition try_body (rt : Runtime) : Cell Strategy :=
  call (import_Client rt) ;;;

  c <- call (Client rt) ;;
  call (configure_tpu_version rt) ;;;
  tpu <- call (TPUClusterResolver rt) ;;
  worker <- call (cluster_spec_worker rt tpu) ;;
  print [VStr "Running on TPU "; VList worker] ;;;
  call (experimental_connect_to_cluster rt tpu) ;;;
  call (initialize_tpu_system rt tpu) ;;;
  call (new_TPUStrategy rt tpu) ;;;
  ret (TPUStrategy tpu).

(** The statements under [except ValueError:]; the local strategy is
    taken to construct without raising. *)
Definition handler : Cell Strategy :=
  print [VStr "Not connected to a TPU runtime. Using CPU/GPU strategy"] ;;;
  ret MirroredStrategy.

(** The cell: the value it leaves in [strategy], or the exception that
    escapes it. *)
Definition select_strategy (rt : Runtime) : Cell Strategy :=
  try_except_ValueError (try_body rt) handler.

(** A statement under [try:] raises [e]: the statements before it have
    returned. *)
Inductive try_raises (rt : Runtime) (e : Exception) : Prop :=
  | raise_import_Client :
      import_Client rt = Raise e -> try_raises rt e
  | raise_Client :
      import_Client rt = Ok tt -> Client rt = Raise e -> try_raises rt e
  | raise_configure_tpu_version :
      import_Client rt = Ok tt -> Client rt = Ok tt ->
      configure_tpu_version rt = Raise e -> try_raises rt e
  | raise_TPUClusterResolver :
      import_Client rt = Ok tt -> Client rt = Ok tt ->
      configure_tpu_version rt = Ok tt ->
      TPUClusterResolver rt = Raise e -> try_raises rt e
  | raise_cluster_spec_worker tpu :
      import_Client rt = Ok tt -> Client rt = Ok tt ->
      configure_tpu_version rt = Ok tt ->
      TPUClusterResolver rt = Ok tpu ->
      cluster_spec_worker rt tpu = Raise e -> try_raises rt e
  | raise_experimental_connect_to_cluster tpu worker :
      import_Client rt = Ok tt -> Client rt = Ok tt ->
      configure_tpu_version rt = Ok tt ->
      TPUClusterResolver rt = Ok tpu ->
      cluster_spec_worker rt tpu = Ok worker ->
      experimental_connect_to_cluster rt tpu = Raise e -> try_raises rt e
  | raise_initialize_tpu_system tpu worker :
      import_Client rt = Ok tt -> Client rt = Ok tt ->
      configure_tpu_version rt = Ok tt ->
      TPUClusterResolver rt = Ok tpu ->
      cluster_spec_worker rt tpu = Ok worker ->
      experimental_connect_to_cluster rt tpu = Ok tt ->
      initialize_tpu_system rt tpu = Raise e -> try_raises rt e
  | raise_new_TPUStrategy tpu worker :
      import_Client rt = Ok tt -> Client rt = Ok tt ->
      configure_tpu_version rt = Ok tt ->
      TPUClusterResolver rt = Ok tpu ->
      cluster_spec_worker rt tpu = Ok worker ->
      experimental_connect_to_cluster rt tpu = Ok tt ->
      initialize_tpu_system rt tpu = Ok tt ->
      new_TPUStrategy rt tpu = Raise e -> try_raises rt e.

(** No statement under [try:] raises: the cluster resolves to [tpu],
    whose workers are [worker]. *)
Definition try_returns (rt : Runtime) (tpu : Resolver)
    (worker : list string) : Prop :=
  import_Client rt = Ok tt /\ Client rt = Ok tt
  /\ configure_tpu_version rt = Ok tt
  /\ TPUClusterResolver rt = Ok tpu
  /\ cluster_spec_worker rt tpu = Ok worker
  /\ experimental_connect_to_cluster rt tpu = Ok tt
  /\ initialize_tpu_system rt tpu = Ok tt
  /\ new_TPUStrategy rt tpu = Ok tt.

(** Sample environments. *)
Definition tpu_runtime : Runtime :=
  mkRuntime (Ok tt) (Ok tt) (Ok tt) (Ok "grpc://10.0.0.2:8470")
    (fun tpu => Ok ["10.0.0.2:8470"]) (fun _ => Ok tt) (fun _ => Ok tt)
    (fun _ => Ok tt).

Definition no_tpu_runtime : Runtime :=
  mkRuntime (Ok tt) (Ok tt) (Ok tt) (Raise ValueError)
    (fun tpu => Ok []) (fun _ => Ok tt) (fun _ => Ok tt) (fun _ => Ok tt).

Definition no_client_runtime : Runtime :=
  mkRuntime (Raise (OtherError "ModuleNotFoundError")) (Ok tt) (Ok tt)
    (Raise ValueError)
    (fun tpu => Ok []) (fun _ => Ok tt) (fun _ => Ok tt) (fun _ => Ok tt).

(** The cluster resolves, but connecting to it raises a [ValueError]. *)
Definition unreachable_tpu_runtime : Runtime :=
  mkRuntime (Ok tt) (Ok tt) (Ok tt) (Ok "grpc://10.0.0.2:8470")
    (fun tpu => Ok ["10.0.0.2:8470"]) (fun _ => Raise ValueError)
    (fun _ => Ok tt) (fun _ => Ok tt).

End Startup.

(** ** Definitions for the proofs *)

Definition with_trainable (b : bool) (ly : Layer) : Layer :=
  mkLayer (name ly) (kind ly) b.

(** What one round of the loop of [unfreeze_model] does to a layer. *)
Definition unfreeze_layer (ly : Layer) : Layer :=
  if contains "bn" (name ly) then ly else with_trainable true ly.

(** What [new_layer] may call a layer. *)
Definition named_by (k : LayerKind) (given : option string) (nm : string)
  : Prop :=
  match given with
  | Some g => nm = g
  | None => exists j, nm = match k with
                           | InputLayer _ => "input_" +:+ str j
                           | _ => auto_name (class_name k) j
                           end
  end.

(** The names of the layers [EfficientNetB0] creates without its top,
    when [k1] rescaling and [k2] normalization layers were named before. *)
Definition backbone_names (names : bool -> list string) (k1 k2 : nat)
  : list string :=
  auto_name "rescaling" k1 :: auto_name "normalization" k2 :: names false.

(** The layers [build_model] creates: those that [EfficientNetB0] returns,
    after the freezing loop, and the rebuilt top. *)
Definition base_layers (backbone : list string)
    (n1 n2 n3 n4 : string) : list Layer :=
  [mkLayer n1 (InputLayer (32, 32, 3)%Z) false;
   mkLayer n2 (RandomFlip None) false;
   mkLayer n3 (RandomContrast 0.1) false;
   mkLayer n4 (Resizing 224 224 "bilinear") false]
  ++ map (fun nm => mkLayer nm EfficientNetLayer false) backbone.

Definition head_layers (bn : string) : list Layer :=
  [mkLayer "avg_pool" GlobalAveragePooling2D true;
   mkLayer bn BatchNormalization true;
   mkLayer "top_dropout" (Dropout 0.2) true;
   mkLayer "pred" (Dense 100 "softmax") true].

(** The layer was created by [EfficientNetB0]. *)
Definition from_efficientnet (ly : Layer) : bool :=
  match kind ly with
  | EfficientNetLayer => true
  | _ => false
  end.

(** The character [c] occurs in [s]. *)
Fixpoint occurs (c : ascii) (s : string) : bool :=
  match s with
  | EmptyString => false
  | String a s' => if Ascii.eqb c a then true else occurs c s'
  end.

(** One round of the loop of [unfreeze_model], as a session operation. *)
Definition unfreeze_body (l : nat) : M unit :=
  bind (get_name l) (fun nm =>
    if contains "bn" nm then print (nm +:+ " is staying untrainable")
    else set_trainable l true).

(** The line [unfreeze_model] prints for the layer called [nm]. *)
Definition staying_untrainable (nm : string) : string :=
  nm +:+ " is staying untrainable".

(** The line the strategy cell prints when it falls back. *)
Definition fallback_notice : list Startup.Value :=
  [Startup.VStr "Not connected to a TPU runtime. Using CPU/GPU strategy"].

(** A session with a layer that is not part of the model. *)
Definition shared_session : Session :=
  mkSession [mkLayer "stem_conv" EfficientNetLayer false;
             mkLayer "stem_bn" EfficientNetLayer false;
             mkLayer "other_conv" EfficientNetLayer false] ∅ [] [].
Definition partial_model : Model :=
  mkModel "model" [0; 1] None None [].

(** [l] is the layer [outer] or lies inside it, at any depth: these are
    the layers that an assignment to [outer.trainable] reaches. *)
Fixpoint reach (depth : nat) (h : list Layer) (outer : nat) : list nat :=
  outer :: match depth with
           | 0 => []
           | S depth' =>
               flat_map (reach depth' h)
                        (from_option sublayers [] (h !! outer))
           end.

Definition inside (h : list Layer) (l outer : nat) : Prop :=
  l ∈ reach (length h) h outer.

(** The name [l.name] reads. *)
Definition name_at (h : list Layer) (l : nat) : string :=
  from_option name "" (h !! l).

(** The layers whose flag is [b] after assignments that reach [ls]. *)
Definition mark (b : bool) (ls : list nat) (h : list Layer) : list Layer :=
  imap (fun i ly => if bool_decide (i ∈ ls) then with_trainable b ly else ly)
       h.

(** The layers that the loop of [unfreeze_model] over [ls] reaches. *)
Definition unfrozen (h : list Layer) (ls : list nat) : list nat :=
  flat_map (fun l => if contains "bn" (name_at h l) then []
                     else reach (length h) h l) ls.

(** What loading the ImageNet weights without the top prints in a session
    where the files [c] are there already. *)
Definition download_output (progress : string -> list string)
    (c : list string) : list string :=
  if bool_decide ("efficientnetb0_notop.h5" ∈ c) then []
  else ("Downloading data from " +:+ BASE_WEIGHTS_PATH
          +:+ "efficientnetb0_notop.h5")
       :: progress "efficientnetb0_notop.h5".

(** * Proofs *)

(** ** Names *)

Lemma occurs_append c s1 s2 :
  occurs c (s1 +:+ s2) = occurs c s1 || occurs c s2.
Proof.
  induction s1 as [|a s1 IH]; [done|].
  change (String a s1 +:+ s2) with (String a (s1 +:+ s2)).
  cbn [occurs]. by destruct (Ascii.eqb c a).
Qed.

Lemma contains_bn_occurs s : occurs "b" s = false -> contains "bn" s = false.
Proof.
  induction s as [|a s IH]; [done|].
  cbn [occurs contains String.prefix].
  destruct (Ascii.eqb_spec "b" a) as [<-|Hne]; [intros; discriminate|].
  intros Hs. destruct (ascii_dec "b" a) as [Heq|_]; [by destruct Hne|].
  by apply IH.
Qed.

Lemma occurs_b_digits d : occurs "b" (NilEmpty.string_of_uint d) = false.
Proof. induction d; cbn; done. Qed.

Lemma occurs_b_str k : occurs "b" (str k) = false.
Proof.
  unfold str, NilZero.string_of_uint.
  destruct (Nat.to_uint k) as [|d|d|d|d|d|d|d|d|d|d]; [done|..];
    cbn [NilEmpty.string_of_uint occurs Ascii.eqb Bool.eqb];
    apply occurs_b_digits.
Qed.

Lemma auto_name_batch_normalization k :
  contains "bn" (auto_name "batch_normalization" k) = false.
Proof.
  destruct k as [|k]; [done|].
  unfold auto_name.
  apply (contains_bn_occurs ("atch_normalization" +:+ "_" +:+ str (S k))).
  rewrite !occurs_append, occurs_b_str. done.
Qed.

Lemma auto_name_no_bn prefix k :
  occurs "b" prefix = false -> contains "bn" (auto_name prefix k) = false.
Proof.
  intros Hprefix. apply contains_bn_occurs. unfold auto_name.
  destruct k; [done|]. by rewrite !occurs_append, occurs_b_str, Hprefix.
Qed.

(** ** Assigning a trainable flag *)

Lemma lookup_mark b ls h i :
  mark b ls h !! i
  = (fun ly => if bool_decide (i ∈ ls) then with_trainable b ly else ly)
      <$> h !! i.
Proof. unfold mark. by rewrite list_lookup_imap. Qed.

Lemma length_mark b ls h : length (mark b ls h) = length h.
Proof. apply length_imap. Qed.

Lemma kind_lookup_mark b ls h i :
  kind <$> mark b ls h !! i = kind <$> h !! i.
Proof.
  rewrite lookup_mark. destruct (h !! i) as [ly|]; [|done].
  cbn. by case_bool_decide.
Qed.

Lemma name_lookup_mark b ls h i :
  name <$> mark b ls h !! i = name <$> h !! i.
Proof.
  rewrite lookup_mark. destruct (h !! i) as [ly|]; [|done].
  cbn. by case_bool_decide.
Qed.

Lemma sublayers_mark b ls h i :
  from_option sublayers [] (mark b ls h !! i)
  = from_option sublayers [] (h !! i).
Proof.
  pose proof (kind_lookup_mark b ls h i) as Hk. unfold sublayers.
  destruct (mark b ls h !! i), (h !! i); cbn in *; try done.
  by injection Hk as ->.
Qed.

Lemma name_at_mark b ls h i : name_at (mark b ls h) i = name_at h i.
Proof.
  pose proof (name_lookup_mark b ls h i) as Hn. unfold name_at.
  destruct (mark b ls h !! i), (h !! i); cbn in *; try done.
  by injection Hn.
Qed.

Lemma flat_map_ext_all {A B} (f g : A -> list B) (xs : list A) :
  (forall x, f x = g x) -> flat_map f xs = flat_map g xs.
Proof.
  intros Hfg. induction xs as [|x xs IH]; [done|]. cbn. by rewrite Hfg, IH.
Qed.

Lemma reach_mark b ls h depth l :
  reach depth (mark b ls h) l = reach depth h l.
Proof.
  revert l. induction depth as [|depth IH]; intros l; [done|].
  cbn [reach]. rewrite sublayers_mark. f_equal.
  by apply flat_map_ext_all.
Qed.

Lemma mark_nil b h : mark b [] h = h.
Proof.
  apply list_eq. intros i. rewrite lookup_mark.
  destruct (h !! i); [|done]. cbn. rewrite bool_decide_eq_false_2; [done|].
  apply not_elem_of_nil.
Qed.

Lemma mark_mark b ls1 ls2 h :
  mark b ls2 (mark b ls1 h) = mark b (ls1 ++ ls2) h.
Proof.
  apply list_eq. intros i. rewrite !lookup_mark.
  destruct (h !! i) as [ly|]; [|done]. cbn. f_equal.
  rewrite (bool_decide_ext (i ∈ ls1 ++ ls2) (i ∈ ls1 ∨ i ∈ ls2))
    by apply elem_of_app.
  repeat case_bool_decide; try done; tauto.
Qed.

Lemma alter_mark b l h : alter (with_trainable b) l h = mark b [l] h.
Proof.
  apply list_eq. intros i. rewrite lookup_mark, list_lookup_alter.
  rewrite (bool_decide_ext (i ∈ [l]) (l = i))
    by (rewrite list_elem_of_singleton; split; congruence).
  case_decide as Hli.
  - subst i. rewrite bool_decide_eq_true_2 by done. done.
  - rewrite bool_decide_eq_false_2 by done. by destruct (h !! i).
Qed.

Lemma set_trainable_in_run depth l b s :
  set_trainable_in depth l b s
  = (tt, mkSession (mark b (reach depth (heap s) l) (heap s))
           (name_uid s) (stdout s) (cached s)).
Proof.
  revert l s. induction depth as [|depth IH]; intros l s.
  - cbn [set_trainable_in reach]. by rewrite <- alter_mark.
  - cbn [set_trainable_in reach].
    change (fun ly => mkLayer (name ly) (kind ly) b) with (with_trainable b).
    rewrite alter_mark.
    assert (Hloop : forall cs s1,
      for_each cs (fun l' => set_trainable_in depth l' b) s1
      = (tt, mkSession
               (mark b (flat_map (reach depth (heap s1)) cs) (heap s1))
               (name_uid s1) (stdout s1) (cached s1))).
    { induction cs as [|c cs IHcs]; intros s1.
      - cbn. rewrite mark_nil. by destruct s1.
      - cbn [for_each flat_map]. unfold bind. rewrite IH, IHcs.
        cbn [heap name_uid stdout cached]. rewrite mark_mark.
        do 3 f_equal. f_equal. apply flat_map_ext_all. intros x.
        apply reach_mark. }
    rewrite Hloop. cbn [heap name_uid stdout cached].
    rewrite mark_mark. do 3 f_equal. cbn [app]. f_equal.
    apply flat_map_ext_all. intros x. apply reach_mark.
Qed.

Lemma set_trainable_run l b s :
  set_trainable l b s
  = (tt, mkSession (mark b (reach (length (heap s)) (heap s) l) (heap s))
           (name_uid s) (stdout s) (cached s)).
Proof. apply set_trainable_in_run. Qed.

Lemma reach_flat depth h l :
  from_option sublayers [] (h !! l) = [] -> reach depth h l = [l].
Proof. intros Hl. destruct depth; cbn [reach]; [done|]. by rewrite Hl. Qed.

Lemma set_trainable_flat l b s :
  from_option sublayers [] (heap s !! l) = [] ->
  set_trainable l b s
  = (tt, mkSession (alter (with_trainable b) l (heap s))
           (name_uid s) (stdout s) (cached s)).
Proof.
  intros Hl. rewrite set_trainable_run, reach_flat by done.
  by rewrite alter_mark.
Qed.

(** ** Running the session operations *)

Lemma alloc_all_run lys s :
  alloc_all lys s =
    (seq (length (heap s)) (length lys),
     mkSession (heap s ++ lys) (name_uid s) (stdout s) (cached s)).
Proof.
  revert s. induction lys as [|ly lys IH]; intros s.
  - cbn. unfold ret. rewrite app_nil_r. by destruct s.
  - cbn [alloc_all]. unfold bind, alloc at 1. rewrite IH. cbn.
    unfold ret. rewrite length_app, <- app_assoc. cbn.
    by rewrite Nat.add_1_r.
Qed.

Lemma for_each_set_trainable_fresh b (h new : list Layer) u o c :
  Forall (fun ly => sublayers ly = []) new ->
  for_each (seq (length h) (length new)) (fun l => set_trainable l b)
           (mkSession (h ++ new) u o c)
  = (tt, mkSession (h ++ map (with_trainable b) new) u o c).
Proof.
  revert h. induction new as [|x new IH]; intros h Hflat; [done|].
  apply Forall_cons in Hflat as [Hx Hnew].
  cbn [length seq for_each map]. unfold bind.
  rewrite set_trainable_flat
    by (cbn [heap]; by rewrite list_lookup_middle).
  cbn [heap name_uid stdout cached].
  replace (alter (with_trainable b) (length h) (h ++ x :: new))
    with ((h ++ [with_trainable b x]) ++ new).
  - replace (S (length h)) with (length (h ++ [with_trainable b x]))
      by (rewrite length_app; cbn; lia).
    rewrite IH by done. by rewrite <- app_assoc.
  - rewrite <- app_assoc. cbn.
    rewrite alter_app_r_alt by lia. by rewrite Nat.sub_diag.
Qed.

Lemma omap_lookup_fresh {A} (h new : list A) :
  omap (fun l => (h ++ new) !! l) (seq (length h) (length new)) = new.
Proof.
  revert h. induction new as [|x new IH]; intros h; [done|].
  cbn [length seq omap list_omap]. rewrite list_lookup_middle by done.
  f_equal. specialize (IH (h ++ [x])).
  rewrite <- app_assoc, length_app in IH. cbn in IH.
  by rewrite Nat.add_1_r in IH.
Qed.

Lemma new_layer_run k given h u o c :
  exists nm u',
    new_layer k given (mkSession h u o c)
      = (length h, mkSession (h ++ [mkLayer nm k true]) u' o c)
    /\ named_by k given nm.
Proof.
  unfold new_layer, bind, named_by.
  destruct given as [g|]; [by eexists _, _|].
  destruct k; cbn; eexists _, _; (split; [reflexivity|]); eexists; reflexivity.
Qed.

Ltac step_new_layer :=
  match goal with
  | |- context [new_layer ?k ?g (mkSession ?hh ?uu ?oo ?cc)] =>
      let nm := fresh "nm" in
      let uids := fresh "uids" in
      let Hrun := fresh "Hrun" in
      let Hnm := fresh "Hnm" in
      destruct (new_layer_run k g hh uu oo cc) as (nm & uids & Hrun & Hnm);
      rewrite Hrun; clear Hrun; cbn [ret]
  end.

Lemma named_by_no_bn k nm :
  named_by k None nm ->
  occurs "b" (class_name k) = false ->
  contains "bn" nm = false.
Proof.
  intros [j ->] Hclass. apply contains_bn_occurs.
  destruct k; cbn [class_name] in *; try discriminate;
    try (unfold auto_name; destruct j; [done|]);
    by rewrite !occurs_append, occurs_b_str.
Qed.

Lemma get_file_run progress fname origin h u o c :
  get_file progress fname origin (mkSession h u o c)
  = (tt, mkSession h u
           (o ++ (if bool_decide (fname ∈ c) then []
                  else ("Downloading data from " +:+ origin)
                       :: progress fname))
           (if bool_decide (fname ∈ c) then c else c ++ [fname])).
Proof.
  unfold get_file. cbn [cached heap name_uid stdout].
  case_bool_decide; [|done]. by rewrite app_nil_r.
Qed.

(** ** [build_model] and [unfreeze_model] *)

Lemma build_model_run names progress n s :
  exists n1 n2 n3 n4 k1 k2 k uids c,
    build_model names progress n s =
      (mkModel "EfficientNet"
         (seq (length (heap s))
              (length (base_layers (backbone_names names k1 k2) n1 n2 n3 n4
                       ++ head_layers (auto_name "batch_normalization" k))))
         (Some (SGD 0.2 (Some 0.1%Q) (Some true)))
         (Some "categorical_crossentropy") ["accuracy"],
       mkSession
         (heap s ++ base_layers (backbone_names names k1 k2) n1 n2 n3 n4
                 ++ head_layers (auto_name "batch_normalization" k))
         uids (stdout s ++ download_output progress (cached s)) c)
    /\ contains "bn" n1 = false /\ contains "bn" n2 = false
    /\ contains "bn" n3 = false /\ contains "bn" n4 = false.
Proof.
  destruct s as [h u o c].
  unfold build_model, Input, apply_layer, bind.
  do 4 step_new_layer.
  unfold EfficientNetB0, bind, unique_object_name.
  cbn [heap name_uid stdout cached].
  rewrite alloc_all_run. cbn [ret heap name_uid stdout cached layers].
  change (String.eqb "imagenet" "imagenet") with true. cbv iota.
  rewrite get_file_run. cbn [ret layers].
  rewrite <- !app_assoc. cbn [app].
  match goal with
  | |- context [for_each ?refs _ (mkSession (h ++ ?new) _ _ _)] =>
      replace refs with (seq (length h) (length new))
        by (rewrite ?length_app; cbn [length seq map]; rewrite ?length_map;
            repeat f_equal; lia);
      rewrite (for_each_set_trainable_fresh false h new)
        by (repeat (constructor; [reflexivity|]);
            apply Forall_fmap, Forall_true; done)
  end.
  cbn [map with_trainable name kind output layers].
  do 4 step_new_layer.
  cbn in Hnm3, Hnm5, Hnm6. subst nm3 nm5 nm6. destruct Hnm4 as [k ->].
  eexists nm, nm0, nm1, nm2, _, _, k, uids6, _.
  split; [|by repeat split; eapply named_by_no_bn].
  unfold ret, keras_Model, compile, base_layers, head_layers, IMG_SIZE,
    backbone_names, download_output.
  cbn [layers model_name heap stdout cached].
  rewrite !map_map. cbn [with_trainable name kind map].
  f_equal; [f_equal|f_equal].
  - rewrite !length_app. cbn [length app Nat.add seq].
    rewrite !length_map, seq_app. cbn [seq].
    rewrite <- !app_assoc. cbn [app].
    repeat (apply (f_equal2 cons); [lia|]).
    apply (f_equal2 app); [apply (f_equal2 seq); lia|].
    repeat (apply (f_equal2 cons); [lia|]). reflexivity.
  - rewrite <- !app_assoc. cbn [app]. reflexivity.
Qed.

Lemma unfreeze_layer_name ly : name (unfreeze_layer ly) = name ly.
Proof. unfold unfreeze_layer. by destruct (contains "bn" (name ly)). Qed.

Lemma unfreeze_layer_idemp ly :
  unfreeze_layer (unfreeze_layer ly) = unfreeze_layer ly.
Proof.
  unfold unfreeze_layer at 1. rewrite unfreeze_layer_name.
  unfold unfreeze_layer. by destruct (contains "bn" (name ly)).
Qed.

Lemma unfreeze_model_unfold model :
  unfreeze_model model
  = bind (for_each (layers model) unfreeze_body)
      (fun _ => ret (compile model (SGD 0.005 None None)
                       "categorical_crossentropy" ["accuracy"])).
Proof. reflexivity. Qed.

Lemma unfreeze_model_eval m s :
  eval (unfreeze_model m) s
  = compile m (SGD 0.005 None None) "categorical_crossentropy" ["accuracy"].
Proof.
  unfold eval, unfreeze_model, bind.
  by destruct (for_each _ _ s).
Qed.

Lemma unfreeze_body_run l s :
  unfreeze_body l s
  = (tt,
     if contains "bn" (name_at (heap s) l)
     then mkSession (heap s) (name_uid s)
            (stdout s ++ [staying_untrainable (name_at (heap s) l)])
            (cached s)
     else mkSession (mark true (reach (length (heap s)) (heap s) l) (heap s))
            (name_uid s) (stdout s) (cached s)).
Proof.
  unfold unfreeze_body, bind, get_name.
  change (match heap s !! l with Some ly => name ly | None => "" end)
    with (name_at (heap s) l).
  destruct (contains "bn" (name_at (heap s) l)); [done|].
  apply set_trainable_run.
Qed.

Lemma names_omap_ext (h1 h2 : list Layer) (ls : list nat) :
  (forall i, name <$> h1 !! i = name <$> h2 !! i) ->
  name <$> omap (fun l => h1 !! l) ls = name <$> omap (fun l => h2 !! l) ls.
Proof.
  intros Hnames. induction ls as [|l ls IH]; [done|].
  cbn. specialize (Hnames l).
  destruct (h1 !! l), (h2 !! l); cbn in *; try done.
  injection Hnames as ->. by rewrite IH.
Qed.

Lemma unfrozen_mark b R h ls : unfrozen (mark b R h) ls = unfrozen h ls.
Proof.
  unfold unfrozen. apply flat_map_ext_all. intros l.
  by rewrite name_at_mark, length_mark, reach_mark.
Qed.

Lemma unfrozen_cons h l ls :
  unfrozen h (l :: ls)
  = (if contains "bn" (name_at h l) then [] else reach (length h) h l)
    ++ unfrozen h ls.
Proof. reflexivity. Qed.

Lemma for_each_unfreeze_body ls s :
  for_each ls unfreeze_body s
  = (tt, mkSession (mark true (unfrozen (heap s) ls) (heap s)) (name_uid s)
           (stdout s ++ (staying_untrainable
                           <$> List.filter (contains "bn")
                                 (name <$> omap (fun l => heap s !! l) ls)))
           (cached s)).
Proof.
  revert s. induction ls as [|l ls IH]; intros s.
  - cbn. unfold ret. rewrite mark_nil, app_nil_r. by destruct s.
  - cbn [for_each]. unfold bind. rewrite unfreeze_body_run, IH. clear IH.
    f_equal. rewrite unfrozen_cons.
    destruct (contains "bn" (name_at (heap s) l)) eqn:Hbn;
      cbn [heap name_uid stdout cached app].
    + unfold name_at in *. cbn [omap list_omap].
      destruct (heap s !! l) as [ly|]; [|discriminate].
      cbn [from_option fmap list_fmap List.filter] in *. rewrite Hbn.
      cbn [fmap list_fmap]. by rewrite <- app_assoc.
    + rewrite unfrozen_mark, mark_mark.
      rewrite (names_omap_ext _ (heap s)) by apply name_lookup_mark.
      unfold name_at in *. cbn [omap list_omap].
      destruct (heap s !! l) as [ly|]; [|done].
      cbn [from_option fmap list_fmap List.filter] in *. by rewrite Hbn.
Qed.

Lemma unfreeze_model_exec model s :
  exec (unfreeze_model model) s
  = mkSession (mark true (unfrozen (heap s) (layers model)) (heap s))
      (name_uid s)
      (stdout s ++ (staying_untrainable
                      <$> List.filter (contains "bn")
                            (name <$> model_layers s model)))
      (cached s).
Proof.
  unfold exec. rewrite unfreeze_model_unfold. unfold bind.
  by rewrite for_each_unfreeze_body.
Qed.

Lemma unfreeze_model_heap model s i :
  heap (exec (unfreeze_model model) s) !! i
  = (fun ly => if bool_decide (i ∈ unfrozen (heap s) (layers model))
               then with_trainable true ly else ly) <$> heap s !! i.
Proof. rewrite unfreeze_model_exec. apply lookup_mark. Qed.

Lemma elem_of_unfrozen h ls i :
  i ∈ unfrozen h ls
  <-> exists l, l ∈ ls /\ contains "bn" (name_at h l) = false
                /\ i ∈ reach (length h) h l.
Proof.
  unfold unfrozen. induction ls as [|l ls IH].
  - cbn. split; [by intros ?%elem_of_nil|].
    by intros (l & ?%elem_of_nil & _).
  - cbn [flat_map]. rewrite elem_of_app, IH. split.
    + intros [Hl|(l' & ? & ? & ?)].
      * exists l. destruct (contains "bn" (name_at h l));
          [by apply elem_of_nil in Hl|]. split; [left|done].
      * exists l'. split; [by right|done].
    + intros (l' & [->|Hin]%elem_of_cons & Hbn & Hreach).
      * left. by rewrite Hbn.
      * right. by exists l'.
Qed.

Lemma reach_self depth h l : l ∈ reach depth h l.
Proof. destruct depth; cbn; left. Qed.

(** On a model whose layers have no layers inside them, the loop of
    [unfreeze_model] is a map over the layers. *)
Lemma model_layers_unfreeze model s :
  (forall l, l ∈ layers model ->
             from_option sublayers [] (heap s !! l) = []) ->
  model_layers (exec (unfreeze_model model) s) (eval (unfreeze_model model) s)
  = unfreeze_layer <$> model_layers s model.
Proof.
  intros Hflat. rewrite unfreeze_model_eval. unfold model_layers.
  cbn [layers compile].
  assert (Hext : forall l, l ∈ layers model ->
    heap (exec (unfreeze_model model) s) !! l
    = unfreeze_layer <$> heap s !! l).
  { intros l Hl. rewrite unfreeze_model_heap.
    destruct (heap s !! l) as [ly|] eqn:Hly; [|done]. cbn. f_equal.
    unfold unfreeze_layer.
    destruct (contains "bn" (name ly)) eqn:Hbn.
    - rewrite bool_decide_eq_false_2; [done|].
      intros (l' & Hl' & Hbn' & Hreach)%elem_of_unfrozen.
      rewrite reach_flat in Hreach by auto.
      apply list_elem_of_singleton in Hreach as ->.
      unfold name_at in Hbn'. rewrite Hly in Hbn'. cbn in Hbn'. congruence.
    - rewrite bool_decide_eq_true_2; [done|].
      apply elem_of_unfrozen. exists l. split; [done|].
      split; [|apply reach_self]. unfold name_at. by rewrite Hly. }
  induction (layers model) as [|l ls IH]; [done|].
  cbn. rewrite (Hext l) by left. rewrite IH.
  - by destruct (heap s !! l).
  - intros; apply Hflat; by right.
  - intros; apply Hext; by right.
Qed.

Lemma model_layers_build names progress n s :
  exists n1 n2 n3 n4 k1 k2 k,
    model_layers (exec (build_model names progress n) s)
                 (eval (build_model names progress n) s)
    = base_layers (backbone_names names k1 k2) n1 n2 n3 n4
      ++ head_layers (auto_name "batch_normalization" k).
Proof.
  destruct (build_model_run names progress n s)
    as (n1 & n2 & n3 & n4 & k1 & k2 & k & uids & c & Hrun & _).
  exists n1, n2, n3, n4, k1, k2, k. unfold eval, exec. rewrite Hrun.
  unfold model_layers. cbn [fst snd layers heap].
  apply omap_lookup_fresh.
Qed.

Lemma head_layers_no_bn k ly :
  ly ∈ head_layers (auto_name "batch_normalization" k) ->
  contains "bn" (name ly) = false.
Proof.
  unfold head_layers. rewrite !elem_of_cons, elem_of_nil.
  intros [->|[->|[->|[->|[]]]]]; cbn [name]; try done.
  apply auto_name_batch_normalization.
Qed.

Lemma base_layers_frozen backbone n1 n2 n3 n4 ly :
  ly ∈ base_layers backbone n1 n2 n3 n4 -> trainable ly = false.
Proof.
  unfold base_layers. rewrite elem_of_app, !elem_of_cons, elem_of_nil.
  rewrite list_elem_of_fmap.
  intros [[->|[->|[->|[->|[]]]]]|(nm & -> & _)]; done.
Qed.

Lemma built_layers_flat backbone n1 n2 n3 n4 bn ly :
  ly ∈ base_layers backbone n1 n2 n3 n4 ++ head_layers bn ->
  sublayers ly = [].
Proof.
  unfold base_layers, head_layers.
  rewrite !elem_of_app, !elem_of_cons, elem_of_nil, list_elem_of_fmap.
  intros [[[->|[->|[->|[->|[]]]]]|(nm & -> & _)]|[->|[->|[->|[->|[]]]]]];
    done.
Qed.

(** The model of [build_model] has no model among its layers. *)
Lemma build_model_flat names progress n s l :
  l ∈ layers (eval (build_model names progress n) s) ->
  from_option sublayers []
    (heap (exec (build_model names progress n) s) !! l) = [].
Proof.
  destruct (build_model_run names progress n s)
    as (n1 & n2 & n3 & n4 & k1 & k2 & k & uids & c & Hrun & _).
  unfold eval, exec. rewrite Hrun. cbn [fst snd layers heap].
  intros [Hge Hlt]%elem_of_seq.
  rewrite lookup_app_r by done.
  destruct (_ !! (l - length (heap s))) as [ly|] eqn:Hly; [|done].
  cbn. eapply built_layers_flat, list_elem_of_lookup_2, Hly.
Qed.

(** ** The claims *)

(** C1: in a model that [build_model] returns, after [unfreeze_model] has
    run on it every layer whose name contains "bn" has its trainable flag
    false. *)
Theorem unfreeze_after_build_keeps_bn_frozen names progress n_classes s ly :
  let model := eval (build_model names progress n_classes) s in
  let s1 := exec (build_model names progress n_classes) s in
  ly ∈ model_layers (exec (unfreeze_model model) s1)
                    (eval (unfreeze_model model) s1) ->
  contains "bn" (name ly) = true ->
  trainable ly = false.
Proof.
  intros model s1. subst model s1.
  rewrite model_layers_unfreeze by apply build_model_flat.
  destruct (model_layers_build names progress n_classes s)
    as (n1 & n2 & n3 & n4 & k1 & k2 & k & ->).
  rewrite list_elem_of_fmap. intros (ly0 & -> & Hin).
  rewrite unfreeze_layer_name. intros Hbn.
  unfold unfreeze_layer. rewrite Hbn.
  apply elem_of_app in Hin as [Hbase|Hhead].
  - by apply base_layers_frozen in Hbase.
  - apply head_layers_no_bn in Hhead. congruence.
Qed.

Lemma unfreeze_after_build_keeps_bn_frozen_witness :
  mkLayer "stem_bn" EfficientNetLayer false
    ∈ model_layers (exec (unfreeze_model sample_model) sample_session)
                   (eval (unfreeze_model sample_model) sample_session)
  /\ contains "bn" (name (mkLayer "stem_bn" EfficientNetLayer false)) = true
  /\ trainable (mkLayer "stem_bn" EfficientNetLayer false) = false.
Proof.
  unfold sample_model, sample_session.
  assert (Hin : mkLayer "stem_bn" EfficientNetLayer false
    ∈ model_layers
        (exec (unfreeze_model
                 (eval (build_model sample_names sample_progress NUM_CLASSES)
                       empty_session))
              (exec (build_model sample_names sample_progress NUM_CLASSES)
                    empty_session))
        (eval (unfreeze_model
                 (eval (build_model sample_names sample_progress NUM_CLASSES)
                       empty_session))
              (exec (build_model sample_names sample_progress NUM_CLASSES)
                    empty_session))).
  { vm_compute. repeat constructor. }
  split; [exact Hin|]. split; [reflexivity|].
  apply (unfreeze_after_build_keeps_bn_frozen
           sample_names sample_progress NUM_CLASSES empty_session);
    [exact Hin|reflexivity].
Defined.

(** What the sample run prints: the download of the weights by
    [build_model], then the lines of [unfreeze_model]. *)
Example unfreeze_sample_stdout :
  stdout (exec (unfreeze_model sample_model) sample_session)
  = ["Downloading data from https://storage.googleapis.com/keras-applications/efficientnetb0_notop.h5";
     "16711680/16705208 [==============================] - 0s 0us/step";
     "stem_bn is staying untrainable";
     "block1a_bn is staying untrainable";
     "top_bn is staying untrainable"].
Proof. reflexivity. Qed.

(** C2: for every model, after [unfreeze_model] has run on it every layer
    of the model whose name does not contain "bn" has its trainable flag
    true. *)
Theorem unfreeze_makes_other_layers_trainable model s ly :
  ly ∈ model_layers (exec (unfreeze_model model) s)
                    (eval (unfreeze_model model) s) ->
  contains "bn" (name ly) = false ->
  trainable ly = true.
Proof.
  rewrite unfreeze_model_eval. unfold model_layers. cbn [layers compile].
  intros (l & Hl & Hly)%list_elem_of_omap Hbn.
  rewrite unfreeze_model_heap in Hly.
  destruct (heap s !! l) as [ly0|] eqn:Hl0; [|done].
  cbn in Hly. injection Hly as <-.
  rewrite bool_decide_eq_true_2; [done|].
  apply elem_of_unfrozen. exists l. split; [done|].
  split; [|apply reach_self].
  unfold name_at. rewrite Hl0. cbn.
  by destruct (bool_decide _).
Qed.

Lemma unfreeze_makes_other_layers_trainable_witness :
  mkLayer "stem_conv" EfficientNetLayer true
    ∈ model_layers (exec (unfreeze_model sample_model) sample_session)
                   (eval (unfreeze_model sample_model) sample_session)
  /\ contains "bn" (name (mkLayer "stem_conv" EfficientNetLayer true)) = false
  /\ trainable (mkLayer "stem_conv" EfficientNetLayer true) = true.
Proof.
  assert (Hin : mkLayer "stem_conv" EfficientNetLayer true
    ∈ model_layers (exec (unfreeze_model sample_model) sample_session)
                   (eval (unfreeze_model sample_model) sample_session)).
  { vm_compute. repeat constructor. }
  split; [exact Hin|]. split; [reflexivity|].
  apply (unfreeze_makes_other_layers_trainable
           sample_model sample_session); [exact Hin|reflexivity].
Defined.

(** C3: for every [n_classes], in the model that [build_model] returns
    every layer that comes from the pretrained EfficientNetB0 has its
    trainable flag false. *)
Theorem build_model_freezes_backbone names progress n_classes s ly :
  ly ∈ model_layers (exec (build_model names progress n_classes) s)
                    (eval (build_model names progress n_classes) s) ->
  kind ly = EfficientNetLayer ->
  trainable ly = false.
Proof.
  destruct (model_layers_build names progress n_classes s)
    as (n1 & n2 & n3 & n4 & k1 & k2 & k & ->).
  intros [Hbase|Hhead]%elem_of_app.
  - intros _. by apply base_layers_frozen in Hbase.
  - revert Hhead. unfold head_layers. rewrite !elem_of_cons, elem_of_nil.
    intros [->|[->|[->|[->|[]]]]]; done.
Qed.

Lemma build_model_freezes_backbone_witness :
  mkLayer "block1a_dwconv" EfficientNetLayer false
    ∈ model_layers sample_session sample_model
  /\ kind (mkLayer "block1a_dwconv" EfficientNetLayer false)
     = EfficientNetLayer
  /\ trainable (mkLayer "block1a_dwconv" EfficientNetLayer false) = false.
Proof.
  unfold sample_model, sample_session.
  assert (Hin : mkLayer "block1a_dwconv" EfficientNetLayer false
    ∈ model_layers
        (exec (build_model sample_names sample_progress NUM_CLASSES)
              empty_session)
        (eval (build_model sample_names sample_progress NUM_CLASSES)
              empty_session)).
  { vm_compute. repeat constructor. }
  split; [exact Hin|]. split; [reflexivity|].
  apply (build_model_freezes_backbone
           sample_names sample_progress NUM_CLASSES empty_session);
    [exact Hin|reflexivity].
Defined.

Lemma filter_from_efficientnet (nms : list string) (b : bool) :
  List.filter from_efficientnet
    (map (fun nm => mkLayer nm EfficientNetLayer b) nms)
  = map (fun nm => mkLayer nm EfficientNetLayer b) nms.
Proof. induction nms as [|nm nms IH]; [done|]. cbn. by rewrite IH. Qed.

(** The layers of the pretrained network are all there, in order: the
    rescaling and the normalization, named by the framework, then the
    layers that have names of their own. *)
Lemma build_model_backbone_names names progress n_classes s :
  exists k1 k2,
    name <$> List.filter from_efficientnet
               (model_layers (exec (build_model names progress n_classes) s)
                             (eval (build_model names progress n_classes) s))
    = auto_name "rescaling" k1 :: auto_name "normalization" k2
      :: names false.
Proof.
  destruct (model_layers_build names progress n_classes s)
    as (n1 & n2 & n3 & n4 & k1 & k2 & k & ->).
  exists k1, k2.
  unfold base_layers, head_layers. rewrite !List.filter_app.
  rewrite filter_from_efficientnet. cbn [List.filter from_efficientnet kind].
  rewrite app_nil_r. cbn [app]. unfold backbone_names.
  generalize (auto_name "rescaling" k1 :: auto_name "normalization" k2
              :: names false).
  intros nms. induction nms as [|nm nms IH]; [done|]. cbn. by rewrite IH.
Qed.

(** C7, amended: [build_model] puts, in this order and before the
    pretrained network, a random flip, a random contrast adjustment and a
    resizing to the resolution of EfficientNetB0, which is 224.  No mode
    is passed to the flip, the only one of the model: it flips in the
    directions of the framework's default, horizontally and
    vertically. *)
Theorem build_model_preprocessing names progress n_classes s :
  kind <$> model_layers (exec (build_model names progress n_classes) s)
                        (eval (build_model names progress n_classes) s)
  = [InputLayer (32, 32, 3)%Z;
     RandomFlip None;
     RandomContrast 0.1;
     Resizing (resolution B0) (resolution B0) "bilinear"]
    ++ replicate (2 + length (names false)) EfficientNetLayer
    ++ [GlobalAveragePooling2D; BatchNormalization;
        Dropout 0.2; Dense 100 "softmax"]
  /\ resolution B0 = 224%Z
  /\ omap flip_mode
       (kind <$> model_layers (exec (build_model names progress n_classes) s)
                              (eval (build_model names progress n_classes) s))
     = ["horizontal_and_vertical"].
Proof.
  assert (Hk :
    kind <$> model_layers (exec (build_model names progress n_classes) s)
                          (eval (build_model names progress n_classes) s)
    = [InputLayer (32, 32, 3)%Z; RandomFlip None; RandomContrast 0.1;
       Resizing (resolution B0) (resolution B0) "bilinear"]
      ++ replicate (2 + length (names false)) EfficientNetLayer
      ++ [GlobalAveragePooling2D; BatchNormalization;
          Dropout 0.2; Dense 100 "softmax"]).
  { destruct (model_layers_build names progress n_classes s)
      as (n1 & n2 & n3 & n4 & k1 & k2 & k & ->).
    unfold base_layers, head_layers, backbone_names.
    rewrite !fmap_app, <- app_assoc. f_equal. f_equal.
    cbn [length Nat.add replicate fmap list_fmap map kind]. do 2 f_equal.
    induction (names false) as [|nm nms IH]; [done|]. cbn. by rewrite IH. }
  rewrite Hk. split; [done|]. split; [done|].
  cbn [app omap list_omap flip_mode default from_option].
  rewrite omap_app.
  assert (Hnone : forall n, omap flip_mode (replicate n EfficientNetLayer)
                            = []).
  { induction n as [|n IH]; [done|]. exact IH. }
  by rewrite Hnone.
Qed.

(** C7 as stated fails: the flip of the model is not a horizontal flip;
    with no mode passed it flips horizontally and vertically. *)
Lemma build_model_flip_not_horizontal :
  (kind <$> model_layers sample_session sample_model) !! 1
    = Some (RandomFlip None)
  /\ flip_mode (RandomFlip None) = Some "horizontal_and_vertical"
  /\ flip_mode (RandomFlip None) <> Some "horizontal".
Proof. split; [reflexivity|]. split; [reflexivity|]. discriminate. Qed.

(** C8: the learning rate that [build_model] configures for training the
    top, 0.2, is strictly greater than the one [unfreeze_model] configures
    for fine-tuning, 0.005, as rationals. *)
Theorem fine_tuning_learning_rate_lower names progress n_classes s :
  let model := eval (build_model names progress n_classes) s in
  let s1 := exec (build_model names progress n_classes) s in
  exists sgd2 sgd3,
    optimizer model = Some sgd2
    /\ optimizer (eval (unfreeze_model model) s1) = Some sgd3
    /\ learning_rate sgd2 = 0.2%Q
    /\ learning_rate sgd3 = 0.005%Q
    /\ (learning_rate sgd3 < learning_rate sgd2)%Q.
Proof.
  intros model s1. subst model. rewrite unfreeze_model_eval.
  destruct (build_model_run names progress n_classes s)
    as (n1 & n2 & n3 & n4 & k1 & k2 & k & uids & c & Hrun & _).
  unfold eval. rewrite Hrun. cbn.
  eexists _, _. do 4 (split; [reflexivity|]). reflexivity.
Qed.

(** C9: [build_model] does not use [n_classes]: whatever is passed, the
    last layer of the model is a dense layer of 100 units. *)
Theorem build_model_ignores_n_classes names progress n_classes n_classes' s :
  build_model names progress n_classes s
    = build_model names progress n_classes' s
  /\ last (model_layers (exec (build_model names progress n_classes) s)
                        (eval (build_model names progress n_classes) s))
     = Some (mkLayer "pred" (Dense 100 "softmax") true).
Proof.
  split; [unfold build_model; reflexivity|].
  destruct (model_layers_build names progress n_classes s)
    as (n1 & n2 & n3 & n4 & k1 & k2 & k & ->).
  rewrite last_app. reflexivity.
Qed.

(** C10, amended: [unfreeze_model] does not assign the flag of a layer
    whose name contains "bn" itself.  Such a layer is as it was after the
    call, with the trainable flag it had before, unless it lies inside a
    layer of [model.layers] whose name does not contain "bn": every layer
    of [model.layers] that it is, or lies in, is skipped. *)
Theorem unfreeze_leaves_bn_layers model s l ly :
  heap s !! l = Some ly ->
  contains "bn" (name ly) = true ->
  (forall outer, outer ∈ layers model -> inside (heap s) l outer ->
                 contains "bn" (name_at (heap s) outer) = true) ->
  heap (exec (unfreeze_model model) s) !! l = Some ly.
Proof.
  intros Hl Hbn Hskip. rewrite unfreeze_model_heap, Hl. cbn. f_equal.
  rewrite bool_decide_eq_false_2; [done|].
  intros (outer & Hin & Hout & Hreach)%elem_of_unfrozen.
  specialize (Hskip outer Hin Hreach). congruence.
Qed.

Lemma unfreeze_leaves_bn_layers_witness :
  heap trainable_bn_session !! 1
    = Some (mkLayer "stem_bn" EfficientNetLayer true)
  /\ contains "bn" (name (mkLayer "stem_bn" EfficientNetLayer true)) = true
  /\ (forall outer,
        outer ∈ layers trainable_bn_model ->
        inside (heap trainable_bn_session) 1 outer ->
        contains "bn" (name_at (heap trainable_bn_session) outer) = true)
  /\ heap (exec (unfreeze_model trainable_bn_model) trainable_bn_session) !! 1
     = Some (mkLayer "stem_bn" EfficientNetLayer true).
Proof.
  assert (Hskip : forall outer,
    outer ∈ layers trainable_bn_model ->
    inside (heap trainable_bn_session) 1 outer ->
    contains "bn" (name_at (heap trainable_bn_session) outer) = true).
  { intros outer Hin Hinside. cbn in Hin.
    apply elem_of_cons in Hin as [->|Hin].
    - vm_compute in Hinside. apply list_elem_of_singleton in Hinside.
      discriminate.
    - apply list_elem_of_singleton in Hin as ->. reflexivity. }
  split; [reflexivity|]. split; [reflexivity|]. split; [exact Hskip|].
  exact (unfreeze_leaves_bn_layers trainable_bn_model trainable_bn_session
           1 _ eq_refl eq_refl Hskip).
Defined.

(** C10 as stated fails: a frozen layer called stem_bn inside a model
    that is the one layer of another model, and whose name has no "bn",
    is trainable after [unfreeze_model]. *)
Lemma unfreeze_nested_bn_becomes_trainable :
  layers nested_model = [2]
  /\ heap nested_session !! 2
     = Some (mkLayer "efficientnetb0" (Functional [0; 1]) false)
  /\ heap nested_session !! 1
     = Some (mkLayer "stem_bn" EfficientNetLayer false)
  /\ contains "bn" "stem_bn" = true
  /\ heap (exec (unfreeze_model nested_model) nested_session) !! 1
     = Some (mkLayer "stem_bn" EfficientNetLayer true)
  /\ stdout (exec (unfreeze_model nested_model) nested_session) = [].
Proof. repeat split. Qed.


(** ** Batching *)

Lemma batch_from_drop_remainder {A} (b : nat) (acc xs : list A) :
  length acc < b ->
  Forall (fun c => length c = b) (Dataset.batch_from b true acc xs)
  /\ length (Dataset.batch_from b true acc xs) = (length acc + length xs) / b.
Proof.
  revert acc. induction xs as [|x xs IH]; intros acc Hacc.
  - cbn [Dataset.batch_from length]. split; [constructor|].
    rewrite Nat.add_0_r. symmetry. by apply Nat.div_small.
  - cbn [Dataset.batch_from].
    destruct (Nat.eqb_spec (length (x :: acc)) b) as [Hfull|Hpart].
    + destruct (IH []) as [IHall IHlen]; [cbn in *; lia|].
      split.
      * constructor; [|exact IHall]. by rewrite length_rev.
      * cbn [length] in *. rewrite IHlen. cbn [length Nat.add].
        replace (length acc + S (length xs)) with (1 * b + length xs) by lia.
        rewrite Nat.div_add_l by lia. done.
    + destruct (IH (x :: acc)) as [IHall IHlen]; [cbn in *; lia|].
      split; [exact IHall|]. rewrite IHlen. cbn [length]. f_equal. lia.
Qed.

(** C4: with [drop_remainder] set, batching [n] examples by [b] gives
    batches of exactly [b] elements each, and floor(n / b) of them. *)
Theorem batch_drop_remainder_full {A} (ds : list A) (b : nat) :
  0 < b ->
  exists batches,
    Dataset.batch ds b true = Some batches
    /\ Forall (fun c => length c = b) batches
    /\ length batches = length ds / b.
Proof.
  intros Hb. unfold Dataset.batch. destruct b as [|b]; [lia|].
  eexists. split; [reflexivity|].
  by apply (batch_from_drop_remainder (S b) [] ds).
Qed.

Lemma batch_drop_remainder_full_witness :
  0 < 64
  /\ exists batches,
       Dataset.batch (seq 0 97) 64 true = Some batches
       /\ Forall (fun c => length c = 64) batches
       /\ length batches = 1.
Proof.
  assert (H64 : 0 < 64) by lia.
  split; [exact H64|].
  exact (batch_drop_remainder_full (seq 0 97) 64 H64).
Defined.

(** 97 examples by 64: one batch when the remainder is dropped, two when
    it is kept. *)
Example batch_97_by_64 :
  length <$> Dataset.batch (seq 0 97) 64 true = Some 1
  /\ length <$> Dataset.batch (seq 0 97) 64 false = Some 2.
Proof. split; reflexivity. Qed.

(** The two datasets of the notebook are batched this way, by 64. *)
Lemma ds_train_batches {A} (slices : list A) :
  exists batches,
    Dataset.ds_train slices = Some batches
    /\ Forall (fun c => length c = 64) batches
    /\ length batches = length slices / 64.
Proof.
  eexists. split; [reflexivity|].
  apply (batch_from_drop_remainder 64 [] slices). cbn. lia.
Qed.

(** ** Strategy selection *)

Lemma try_body_raises rt e out :
  Startup.try_raises rt e ->
  exists out', Startup.try_body rt out = (Startup.Raise e, out').
Proof.
  unfold Startup.try_body, Startup.bind, Startup.call, Startup.print,
    Startup.ret.
  destruct 1;
    repeat match goal with H : _ = _ |- _ => rewrite H; clear H end;
    eexists; reflexivity.
Qed.

Lemma try_body_returns rt tpu worker out :
  Startup.try_returns rt tpu worker ->
  Startup.try_body rt out
  = (Startup.Ok (Startup.TPUStrategy tpu),
     out ++ [[Startup.VStr "Running on TPU "; Startup.VList worker]]).
Proof.
  unfold Startup.try_body, Startup.bind, Startup.call, Startup.print,
    Startup.ret.
  intros (H1 & H2 & H3 & H4 & H5 & H6 & H7 & H8).
  by rewrite H1, H2, H3, H4, H5, H6, H7, H8.
Qed.

(** C5, amended: if a statement under [try:] raises a [ValueError], the
    cell prints that no TPU is connected and selects the mirrored
    strategy; if none of them raises, the cell prints the workers of the
    cluster and selects the TPU strategy; an exception of any other class
    is not caught and escapes the cell. *)
Theorem select_strategy_cases rt out :
  (Startup.try_raises rt Startup.ValueError ->
   fst (Startup.select_strategy rt out) = Startup.Ok Startup.MirroredStrategy)
  /\ (forall tpu worker,
        Startup.try_returns rt tpu worker ->
        Startup.select_strategy rt out
        = (Startup.Ok (Startup.TPUStrategy tpu),
           out ++ [[Startup.VStr "Running on TPU "; Startup.VList worker]]))
  /\ (forall cls,
        Startup.try_raises rt (Startup.OtherError cls) ->
        fst (Startup.select_strategy rt out)
        = Startup.Raise (Startup.OtherError cls)).
Proof.
  unfold Startup.select_strategy, Startup.try_except_ValueError.
  split; [|split].
  - intros [out' ->]%(try_body_raises _ _ out). reflexivity.
  - intros tpu worker ->%(try_body_returns _ _ _ out). reflexivity.
  - intros cls [out' ->]%(try_body_raises _ _ out). reflexivity.
Qed.

Lemma select_strategy_cases_witness :
  fst (Startup.select_strategy Startup.no_tpu_runtime [])
    = Startup.Ok Startup.MirroredStrategy
  /\ Startup.select_strategy Startup.tpu_runtime []
     = (Startup.Ok (Startup.TPUStrategy "grpc://10.0.0.2:8470"),
        [[Startup.VStr "Running on TPU "; Startup.VList ["10.0.0.2:8470"]]])
  /\ fst (Startup.select_strategy Startup.no_client_runtime [])
     = Startup.Raise (Startup.OtherError "ModuleNotFoundError").
Proof.
  split; [|split].
  - apply (proj1 (select_strategy_cases Startup.no_tpu_runtime [])).
    by apply Startup.raise_TPUClusterResolver.
  - apply (proj1 (proj2 (select_strategy_cases Startup.tpu_runtime []))).
    repeat split.
  - apply (proj2 (proj2 (select_strategy_cases Startup.no_client_runtime []))).
    by apply Startup.raise_import_Client.
Defined.

(** C5 as stated fails: the cluster resolves, connecting to it raises a
    [ValueError], and the cell ends with the mirrored strategy. *)
Lemma select_strategy_resolved_yet_mirrored :
  Startup.import_Client Startup.unreachable_tpu_runtime = Startup.Ok tt
  /\ Startup.Client Startup.unreachable_tpu_runtime = Startup.Ok tt
  /\ Startup.configure_tpu_version Startup.unreachable_tpu_runtime
     = Startup.Ok tt
  /\ Startup.TPUClusterResolver Startup.unreachable_tpu_runtime
     = Startup.Ok "grpc://10.0.0.2:8470"
  /\ Startup.select_strategy Startup.unreachable_tpu_runtime []
     = (Startup.Ok Startup.MirroredStrategy,
        [[Startup.VStr "Running on TPU "; Startup.VList ["10.0.0.2:8470"]];
         [Startup.VStr
            "Not connected to a TPU runtime. Using CPU/GPU strategy"]])
  /\ fst (Startup.select_strategy Startup.unreachable_tpu_runtime [])
     <> Startup.Ok (Startup.TPUStrategy "grpc://10.0.0.2:8470").
Proof. repeat split; done. Qed.

(** * Further properties of the notebook's code *)

(** ** [unfreeze_model] *)

Lemma mark_twice b ls h : mark b ls (mark b ls h) = mark b ls h.
Proof.
  apply list_eq. intros i. rewrite !lookup_mark.
  destruct (h !! i) as [ly|]; [|done]. cbn. by case_bool_decide.
Qed.

(** X1: running [unfreeze_model] a second time changes no layer: the
    layer objects after the second run are those after the first. *)
Theorem unfreeze_model_twice model s :
  heap (exec (unfreeze_model (eval (unfreeze_model model) s))
             (exec (unfreeze_model model) s))
  = heap (exec (unfreeze_model model) s).
Proof.
  rewrite unfreeze_model_eval, !unfreeze_model_exec.
  cbn [heap layers compile]. by rewrite unfrozen_mark, mark_twice.
Qed.

(** X2: [unfreeze_model] does not touch a layer that is neither in
    [model.layers] nor inside a layer of [model.layers]. *)
Theorem unfreeze_model_frame model s l :
  (forall outer, outer ∈ layers model -> ~ inside (heap s) l outer) ->
  heap (exec (unfreeze_model model) s) !! l = heap s !! l.
Proof.
  intros Hout. rewrite unfreeze_model_heap.
  rewrite bool_decide_eq_false_2; [by destruct (heap s !! l)|].
  intros (outer & Hin & _ & Hreach)%elem_of_unfrozen.
  by apply (Hout outer).
Qed.

Lemma unfreeze_model_frame_witness :
  (forall outer, outer ∈ layers partial_model ->
                 ~ inside (heap shared_session) 2 outer)
  /\ heap (exec (unfreeze_model partial_model) shared_session) !! 2
     = Some (mkLayer "other_conv" EfficientNetLayer false).
Proof.
  assert (Hout : forall outer, outer ∈ layers partial_model ->
                               ~ inside (heap shared_session) 2 outer).
  { intros outer Hin Hinside. cbn in Hin.
    apply elem_of_cons in Hin as [->|Hin];
      [|apply list_elem_of_singleton in Hin as ->];
      vm_compute in Hinside; apply list_elem_of_singleton in Hinside;
      discriminate. }
  split; [exact Hout|].
  exact (unfreeze_model_frame partial_model shared_session 2 Hout).
Defined.

(** X3: [unfreeze_model] changes trainable flags only: there are as many
    layer objects as before, each keeps its name and its kind, and the
    table of used layer names is as it was. *)
Theorem unfreeze_model_only_flags model s :
  length (heap (exec (unfreeze_model model) s)) = length (heap s)
  /\ name_uid (exec (unfreeze_model model) s) = name_uid s
  /\ forall l,
       name <$> heap (exec (unfreeze_model model) s) !! l
         = name <$> heap s !! l
       /\ kind <$> heap (exec (unfreeze_model model) s) !! l
          = kind <$> heap s !! l.
Proof.
  rewrite unfreeze_model_exec. cbn [heap name_uid].
  split; [apply length_mark|]. split; [done|].
  intros l. split; [apply name_lookup_mark|apply kind_lookup_mark].
Qed.

(** X4: [unfreeze_model] prints one line for each layer of the model
    whose name contains "bn", in the order of [model.layers], and nothing
    else. *)
Theorem unfreeze_model_stdout model s :
  stdout (exec (unfreeze_model model) s)
  = stdout s ++ (staying_untrainable
                   <$> List.filter (contains "bn")
                         (name <$> model_layers s model)).
Proof. by rewrite unfreeze_model_exec. Qed.

(** X5: [unfreeze_model] hands back the model of [build_model] with the
    same name, layers, loss and metrics, but recompiled with a plain SGD:
    the momentum 0.1 and the Nesterov flag that [build_model] had set are
    not passed again. *)
Theorem unfreeze_model_recompiles names progress n_classes s :
  let model := eval (build_model names progress n_classes) s in
  let model' := eval (unfreeze_model model)
                     (exec (build_model names progress n_classes) s) in
  model_name model' = model_name model
  /\ layers model' = layers model
  /\ loss model' = loss model
  /\ metrics model' = metrics model
  /\ optimizer model = Some (SGD 0.2 (Some 0.1%Q) (Some true))
  /\ optimizer model' = Some (SGD 0.005 None None).
Proof.
  intros model model'. subst model model'. rewrite unfreeze_model_eval.
  destruct (build_model_run names progress n_classes s)
    as (n1 & n2 & n3 & n4 & k1 & k2 & k & uids & c & Hrun & _).
  unfold eval. rewrite Hrun. clear Hrun. cbn. repeat split.
Qed.


(** ** [build_model] *)

Lemma build_model_shape names progress n_classes s :
  exists new,
    heap (exec (build_model names progress n_classes) s) = heap s ++ new
    /\ length new = 4 + (2 + length (names false)) + 4
    /\ stdout (exec (build_model names progress n_classes) s)
       = stdout s ++ download_output progress (cached s)
    /\ layers (eval (build_model names progress n_classes) s)
       = seq (length (heap s)) (length new).
Proof.
  destruct (build_model_run names progress n_classes s)
    as (n1 & n2 & n3 & n4 & k1 & k2 & k & uids & c & Hrun & _).
  unfold eval, exec. rewrite Hrun. cbn [fst snd heap stdout layers].
  eexists. split; [reflexivity|]. split; [|split; reflexivity].
  unfold base_layers, head_layers, backbone_names.
  rewrite !length_app, length_map. cbn [length]. lia.
Qed.

Lemma omap_lookup_ext {A} (h1 h2 : list A) (ls : list nat) :
  (forall l, l ∈ ls -> h1 !! l = h2 !! l) ->
  omap (fun l => h1 !! l) ls = omap (fun l => h2 !! l) ls.
Proof.
  induction ls as [|l ls IH]; intros Hext; [done|].
  cbn. rewrite (Hext l) by left. rewrite IH by (intros; apply Hext; by right).
  done.
Qed.

Lemma filter_trainable_frozen (f : string -> Layer) (nms : list string) :
  (forall nm, trainable (f nm) = false) ->
  List.filter trainable (map f nms) = [].
Proof.
  intros Hf. induction nms as [|nm nms IH]; [done|].
  cbn. by rewrite Hf.
Qed.

(** X7: [build_model] only adds layer objects, eight more than the
    pretrained network has layers; the layers that existed before are left
    as they were.  It prints nothing of its own: what appears is the
    download of the weights, and only when the framework has not fetched
    the file before. *)
Theorem build_model_only_allocates names progress n_classes s :
  exists new,
    heap (exec (build_model names progress n_classes) s) = heap s ++ new
    /\ length new = 4 + (2 + length (names false)) + 4
    /\ stdout (exec (build_model names progress n_classes) s)
       = stdout s ++ download_output progress (cached s).
Proof.
  destruct (build_model_shape names progress n_classes s)
    as (new & Hheap & Hlen & Hout & _).
  exists new. split; [exact Hheap|]. split; [exact Hlen|exact Hout].
Qed.

(** X8: right after [build_model] the trainable layers of the model are
    exactly the four layers of the rebuilt top: pooling, batch
    normalization, dropout and the dense classifier. *)
Theorem build_model_trains_top_only names progress n_classes s :
  kind <$> List.filter trainable
             (model_layers (exec (build_model names progress n_classes) s)
                           (eval (build_model names progress n_classes) s))
  = [GlobalAveragePooling2D; BatchNormalization;
     Dropout 0.2; Dense 100 "softmax"].
Proof.
  destruct (model_layers_build names progress n_classes s)
    as (n1 & n2 & n3 & n4 & k1 & k2 & k & ->).
  unfold base_layers, head_layers. rewrite !List.filter_app.
  rewrite filter_trainable_frozen by done. reflexivity.
Qed.

(** X9: the layers of the model that [build_model] returns are exactly the
    layer objects the call has created, each of them once. *)
Theorem build_model_layers_fresh names progress n_classes s :
  NoDup (layers (eval (build_model names progress n_classes) s))
  /\ forall l,
       l ∈ layers (eval (build_model names progress n_classes) s)
       <-> length (heap s) <= l
           < length (heap (exec (build_model names progress n_classes) s)).
Proof.
  destruct (build_model_shape names progress n_classes s)
    as (new & -> & _ & _ & ->).
  split; [apply NoDup_seq|].
  intros l. rewrite elem_of_seq, length_app. done.
Qed.

(** X10: two models built one after the other share no layer: unfreezing
    the second one leaves every layer of the first one as [build_model]
    made it. *)
Theorem unfreeze_second_model_keeps_first
    names progress n_classes n_classes' s :
  let model1 := eval (build_model names progress n_classes) s in
  let s1 := exec (build_model names progress n_classes) s in
  let model2 := eval (build_model names progress n_classes') s1 in
  let s2 := exec (build_model names progress n_classes') s1 in
  model_layers (exec (unfreeze_model model2) s2) model1
  = model_layers s1 model1.
Proof.
  intros model1 s1 model2 s2. subst model1 model2 s2.
  destruct (build_model_shape names progress n_classes s)
    as (new1 & Hheap1 & _ & _ & Hlayers1).
  destruct (build_model_shape names progress n_classes' s1)
    as (new2 & Hheap2 & _ & _ & Hlayers2).
  unfold model_layers. apply omap_lookup_ext. intros l Hl.
  rewrite Hlayers1, elem_of_seq in Hl.
  assert (Hlt : l < length (heap s1)).
  { subst s1. rewrite Hheap1, length_app. lia. }
  rewrite unfreeze_model_heap, bool_decide_eq_false_2.
  - rewrite Hheap2, lookup_app_l by done. by destruct (heap s1 !! l).
  - intros (outer & Hin & _ & Hreach)%elem_of_unfrozen.
    rewrite reach_flat in Hreach by (by apply build_model_flat).
    apply list_elem_of_singleton in Hreach as ->.
    rewrite Hlayers2, elem_of_seq in Hin. lia.
Qed.

(** ** [build_model] followed by [unfreeze_model] *)

Lemma filter_map_mkLayer_name (k : LayerKind) (b : bool) (nms : list string) :
  List.filter (contains "bn") (name <$> map (fun nm => mkLayer nm k b) nms)
  = List.filter (contains "bn") nms.
Proof.
  induction nms as [|nm nms IH]; [done|]. cbn. by rewrite IH.
Qed.

(** X11: [unfreeze_model], run on the model of [build_model], adds to
    what has been printed one line for each layer of the pretrained
    network whose name contains "bn", in order, and no line for any other
    layer of the model. *)
Theorem unfreeze_after_build_stdout names progress n_classes s :
  let model := eval (build_model names progress n_classes) s in
  let s1 := exec (build_model names progress n_classes) s in
  stdout (exec (unfreeze_model model) s1)
  = stdout s1 ++ (staying_untrainable
                    <$> List.filter (contains "bn") (names false)).
Proof.
  intros model s1. subst model s1.
  rewrite unfreeze_model_exec. cbn [stdout]. do 2 f_equal.
  destruct (build_model_run names progress n_classes s)
    as (n1 & n2 & n3 & n4 & k1 & k2 & k & uids & c & Hrun
        & H1 & H2 & H3 & H4).
  unfold model_layers, eval, exec. rewrite Hrun. clear Hrun.
  cbn [fst snd layers heap]. rewrite omap_lookup_fresh.
  unfold base_layers, head_layers, backbone_names.
  rewrite !fmap_app, !List.filter_app, filter_map_mkLayer_name.
  cbn [fmap list_fmap name List.filter app].
  rewrite H1, H2, H3, H4, auto_name_batch_normalization.
  rewrite !auto_name_no_bn by reflexivity.
  cbn. by rewrite app_nil_r.
Qed.

(** ** The strategy selection cell *)

Ltac run_cell :=
  unfold Startup.select_strategy, Startup.try_except_ValueError,
    Startup.handler, Startup.try_body, Startup.bind, Startup.call,
    Startup.print, Startup.ret;
  repeat match goal with
    | |- context [match ?x with _ => _ end] =>
        lazymatch x with
        | (_, _) => fail
        | _ => destruct x as [?|[|?]] eqn:?
        end
    end;
  repeat match goal with u : unit |- _ => destruct u end;
  cbn [fst snd].

(** X13: the TPU strategy is selected only when every statement under
    [try:] has returned; the cell has then printed the workers and nothing
    else. *)
Theorem select_strategy_TPU_only_if_all_return rt out tpu :
  fst (Startup.select_strategy rt out)
    = Startup.Ok (Startup.TPUStrategy tpu) ->
  exists worker,
    Startup.try_returns rt tpu worker
    /\ snd (Startup.select_strategy rt out)
       = out ++ [[Startup.VStr "Running on TPU "; Startup.VList worker]].
Proof.
  run_cell; try discriminate.
  intros [= <-]. eexists. unfold Startup.try_returns. eauto 10.
Qed.

Lemma select_strategy_TPU_only_if_all_return_witness :
  fst (Startup.select_strategy Startup.tpu_runtime [])
    = Startup.Ok (Startup.TPUStrategy "grpc://10.0.0.2:8470")
  /\ exists worker,
       Startup.try_returns Startup.tpu_runtime "grpc://10.0.0.2:8470" worker
       /\ snd (Startup.select_strategy Startup.tpu_runtime [])
          = [] ++ [[Startup.VStr "Running on TPU "; Startup.VList worker]].
Proof.
  split; [reflexivity|].
  exact (select_strategy_TPU_only_if_all_return
           Startup.tpu_runtime [] "grpc://10.0.0.2:8470" eq_refl).
Defined.

(** X14: the mirrored strategy is selected exactly when a statement under
    [try:] raises a [ValueError]. *)
Theorem select_strategy_Mirrored_iff rt out :
  fst (Startup.select_strategy rt out) = Startup.Ok Startup.MirroredStrategy
  <-> Startup.try_raises rt Startup.ValueError.
Proof.
  split.
  - run_cell; try discriminate; intros _;
      eauto using Startup.raise_import_Client, Startup.raise_Client,
        Startup.raise_configure_tpu_version, Startup.raise_TPUClusterResolver,
        Startup.raise_cluster_spec_worker,
        Startup.raise_experimental_connect_to_cluster,
        Startup.raise_initialize_tpu_system, Startup.raise_new_TPUStrategy.
  - intros [out' Hraise]%(try_body_raises _ _ out).
    unfold Startup.select_strategy, Startup.try_except_ValueError.
    by rewrite Hraise.
Qed.

(** X15: the cell keeps what was printed before and adds at most two
    lines; the notice of the fallback is among them exactly when the
    mirrored strategy is selected. *)
Theorem select_strategy_output rt out :
  exists printed,
    snd (Startup.select_strategy rt out) = out ++ printed
    /\ length printed <= 2
    /\ (fallback_notice ∈ printed
        <-> fst (Startup.select_strategy rt out)
            = Startup.Ok Startup.MirroredStrategy).
Proof.
  unfold fallback_notice.
  run_cell; rewrite <- ?app_assoc;
    (eexists; split; [try reflexivity; symmetry; apply app_nil_r|]);
    cbn; (split; [lia|]);
    rewrite ?elem_of_cons, ?elem_of_nil; split; intros; try discriminate;
    try tauto; try (intuition discriminate).
Qed.

(** ** The data loading cell *)

Lemma batch_from_concat {A} (b : nat) (acc xs : list A) :
  length acc < b ->
  concat (Dataset.batch_from b true acc xs)
  = take (b * ((length acc + length xs) / b)) (rev acc ++ xs).
Proof.
  revert acc. induction xs as [|x xs IH]; intros acc Hacc.
  - cbn [Dataset.batch_from length concat].
    rewrite Nat.add_0_r, Nat.div_small, Nat.mul_0_r by done. done.
  - cbn [Dataset.batch_from].
    destruct (Nat.eqb_spec (length (x :: acc)) b) as [Hfull|Hpart].
    + cbn [concat]. rewrite IH by (cbn in *; lia).
      cbn [length Nat.add rev app] in *.
      replace (length acc + S (length xs)) with (1 * b + length xs) by lia.
      rewrite Nat.div_add_l by lia.
      replace (rev acc ++ x :: xs) with ((rev acc ++ [x]) ++ xs)
        by (by rewrite <- app_assoc).
      replace (b * (1 + length xs / b))
        with (length (rev acc ++ [x]) + b * (length xs / b)).
      * by rewrite take_app_add.
      * rewrite length_app, length_rev. cbn. lia.
    + rewrite IH by (cbn in *; lia).
      cbn [length rev]. rewrite <- app_assoc. cbn [app].
      do 3 f_equal. lia.
Qed.

(** X16: [ds_train] keeps the examples in their order and loses only the
    end of the data: its batches, put one after the other, are the first
    64 * floor(n / 64) examples, so fewer than 64 examples are dropped. *)
Theorem ds_train_keeps_order {A} (slices : list A) :
  exists batches,
    Dataset.ds_train slices = Some batches
    /\ concat batches = take (64 * (length slices / 64)) slices
    /\ length slices - length (concat batches) < 64.
Proof.
  eexists. split; [reflexivity|].
  unfold Dataset.prefetch, Dataset.cache, Dataset.batch_size.
  rewrite (batch_from_concat 64 [] slices) by (cbn; lia).
  cbn [rev app length Nat.add]. split; [done|].
  rewrite length_take.
  pose proof (Nat.div_mod_eq (length slices) 64).
  pose proof (Nat.mod_upper_bound (length slices) 64).
  lia.
Qed.
